(** * graphql-js server glue: identity resolution and transport dispatch

    A shallow embedding of [src/index.ts] (the HTTP route handler, the
    WebSocket [onSubscribe] / [onConnect] hooks) and of [src/utils.ts]
    ([getTokenPayload], [getUserId]).

    Third-party libraries (jsonwebtoken, graphql-helix, envelop, graphql-js)
    are interfaces: their operations are fields of the classes [JwtLib] and
    [Engine], and the program is a function of an instance of them.  The
    route handler runs under fastify, whose request and reply objects
    provide some of the methods the handler calls and lack others.

    Effects are explicit.  A computation returns the list of observable
    events it performed (library calls, writes to the HTTP response) together
    with either the thrown exception or the returned value. *)

From Stdlib Require Import ZArith Ascii.
From stdpp Require Import base option list strings gmap pretty.

Local Open Scope string_scope.
#[local] Set Warnings "-register-all".

(** ** JavaScript data *)

(** Values that travel through a token payload or a request body.  Only
    [undefined], [null] and JSON data occur. *)
Inductive JsValue : Type :=
  | VUndefined
  | VNull
  | VBool (b : bool)
  | VNum (n : Z)
  | VStr (s : string)
  | VArr (items : list JsValue)
  | VObj (fields : list (string * JsValue)).

(** Thrown values.  [Error m] is [new Error(m)] thrown by this repository;
    [LibError name m] is an exception class of a library. *)
Inductive exn : Type :=
  | Error (message : string)
  | LibError (name message : string).

(** The failure names of the specification, as the code throws them. *)
Definition MissingToken : exn := Error "No token found".
Definition NotAuthenticated : exn := Error "Not authenticated".

(** Truthiness of a string and of an optional string property
    ([undefined] when the property is absent). *)
Definition truthy_string (s : string) : bool :=
  match s with
  | EmptyString => false
  | String _ _ => true
  end.

Definition truthy_prop (o : option string) : bool :=
  match o with
  | None => false
  | Some s => truthy_string s
  end.

(** ** Strings *)

Fixpoint drop_chars (n : nat) (s : string) : string :=
  match n, s with
  | O, _ => s
  | S _, EmptyString => EmptyString
  | S n', String _ s' => drop_chars n' s'
  end.

(** [String.prototype.replace(pat, rep)] with a string pattern: the first
    occurrence of [pat] (leftmost) is replaced, the rest of the string is
    kept.  The replacement used by the program is the empty string, which
    has no [$] patterns, so it is inserted literally. *)
Fixpoint replace (pat rep s : string) : string :=
  if String.prefix pat s then rep +:+ drop_chars (String.length pat) s
  else match s with
       | EmptyString => EmptyString
       | String c s' => String c (replace pat rep s')
       end.

(** [s.includes(pat)] *)
Fixpoint includes (pat s : string) : bool :=
  if String.prefix pat s then true
  else match s with
       | EmptyString => false
       | String _ s' => includes pat s'
       end.

(** [Array.prototype.join] on strings. *)
Fixpoint join (sep : string) (parts : list string) : string :=
  match parts with
  | [] => ""
  | [p] => p
  | p :: rest => p +:+ sep +:+ join sep rest
  end.

(** ** HTTP requests *)

(** The fields of the incoming request the program reads.  Header names are
    lower-cased by the HTTP server, values are strings. *)
Record Request : Type := mkRequest {
  body : JsValue;
  headers : gmap string string;
  method : string;
  query : JsValue
}.

Definition authorization (req : Request) : option string :=
  headers req !! "authorization".

(** ** Observable events *)

(** [new GraphQLError(message)] *)
Record GraphQLError : Type := mkGraphQLError { message : string }.

(** What [res.send] is given: a page, a JSON payload, or the object
    [{ errors: [...] }]. *)
Inductive ResponseBody : Type :=
  | BodyHtml (html : string)
  | BodyJson (payload : JsValue)
  | BodyErrors (errors : list GraphQLError).

Inductive Event : Type :=
  | CallGetUserId (req : option Request) (authToken : option string)
  | CallJwtVerify (token secret : string)
  | ResType (contentType : string)
  | ResSetHeader (name value : string)
  | ResStatus (code : Z)
  | ResSend (payload : ResponseBody)
  | ResWriteHead (code : Z) (hdrs : list (string * string))
  | ReqOn (event : string)
  | ResWrite (data : string)
  | ResEnd
  | CallUnsubscribe.

(** ** Computations: a trace of events and an outcome *)

Definition M (A : Type) : Type := (list Event * (exn + A))%type.

Definition ret {A} (a : A) : M A := ([], inr a).
Definition throw {A} (e : exn) : M A := ([], inl e).
Definition emit (ev : Event) : M unit := ([ev], inr tt).
Definition lift {A} (r : exn + A) : M A := ([], r).

Definition bind {A B} (k : A → M B) (m : M A) : M B :=
  match m with
  | (t, inl e) => (t, inl e)
  | (t, inr a) => let '(t', r) := k a in ((t ++ t')%list, r)
  end.

#[export] Instance M_ret : MRet M := @ret.
#[export] Instance M_bind : MBind M := @bind.

Definition trace {A} (m : M A) : list Event := m.1.
Definition outcome {A} (m : M A) : exn + A := m.2.

(** ** The signed-token library (jsonwebtoken) *)

(** A decoded payload is a string or an object. *)
Inductive Decoded : Type :=
  | DString (s : string)
  | DObject (claims : gmap string JsValue).

Class JwtLib : Type := {
  (** [jwt.sign(payload, secret)] *)
  jwt_sign : Decoded → string → string;
  (** [jwt.verify(token, secret)]: the decoded payload, or an exception *)
  jwt_verify : string → string → exn + Decoded;
  (** an empty token is rejected before any decoding *)
  jwt_verify_empty : ∀ secret,
    jwt_verify "" secret = inl (LibError "JsonWebTokenError" "jwt must be provided")
}.

(** Property read [payload.userId], as the destructuring
    [const { userId } = payload] performs it. *)
Definition userId_of (payload : Decoded) : JsValue :=
  match payload with
  | DString _ => VUndefined
  | DObject claims => default VUndefined (claims !! "userId")
  end.

(** ** src/utils.ts *)

Definition APP_SECRET : string := "GraphQL-is-aw3some".

Section Utils.
Context `{JwtLib}.

Definition getTokenPayload (token : string) : M Decoded :=
  emit (CallJwtVerify token APP_SECRET) ;;
  lift (jwt_verify token APP_SECRET).

(** [req] is [None] for [null] (a request object is always truthy);
    [authToken] is [None] when the optional argument is not passed.
    The body either returns from inside a branch ([Some v]) or falls
    through ([None]) to the final [throw]. *)
Definition getUserId (req : option Request) (authToken : option string)
  : M JsValue :=
  emit (CallGetUserId req authToken) ;;
  returned ←
    match req with
    | Some r =>
        match authorization r with
        | Some authHeader =>
            if truthy_string authHeader then
              let token := replace "Bearer " "" authHeader in
              if negb (truthy_string token) then throw (Error "No token found")
              else
                payload ← getTokenPayload token ;
                ret (Some (userId_of payload))
            else ret None
        | None => ret None
        end
    | None =>
        match authToken with
        | Some tok =>
            if truthy_string tok then
              payload ← getTokenPayload tok ;
              ret (Some (userId_of payload))
            else ret None
        | None => ret None
        end
    end ;
  match returned with
  | Some userId => ret userId
  | None => throw (Error "Not authenticated")
  end.

(** What [getUserId] returns once a token reached [jwt.verify]. *)
Definition resolved (token : string) : exn + JsValue :=
  match jwt_verify token APP_SECRET with
  | inl e => inl e
  | inr payload => inr (userId_of payload)
  end.
End Utils.

(** ** The GraphQL engine (graphql-helix, envelop, graphql-js) *)

Record GraphQLParams : Type := mkParams {
  operationName : JsValue;
  queryText : JsValue;
  variables : JsValue
}.

(** One incremental execution result; [hasNext] is [false] when the field
    is absent. *)
Record ExecutionResult : Type := mkResult {
  data : JsValue;
  hasNext : bool
}.

(** What happens while a multipart response is open, in the order the event
    loop runs it: the engine calls the [subscribe] callback with a result,
    the request emits ["close"], or the promise returned by [subscribe]
    resolves. *)
Inductive StreamEvent : Type :=
  | EngineResult (r : ExecutionResult)
  | ClientClose
  | SubscribeResolved.

(** The result of [processRequest], a union tagged by its [type] field.
    The streaming forms carry the run of their stream. *)
Inductive ProcessRequestResult : Type :=
  | Response (status : Z) (hdrs : list (string * string)) (payload : JsValue)
  | MultipartResponse (run : list StreamEvent)
  | Push (run : list StreamEvent).

Definition result_type (result : ProcessRequestResult) : string :=
  match result with
  | Response _ _ _ => "RESPONSE"
  | MultipartResponse _ => "MULTIPART_RESPONSE"
  | Push _ => "PUSH"
  end.

Inductive PrismaClient : Type := prisma.

(** The context object [{ ...req, prisma, userId }] of the HTTP path. *)
Record HttpContext : Type := mkHttpContext {
  ctx_req : Request;
  ctx_prisma : PrismaClient;
  userId : JsValue
}.

Record ProcessRequestOptions : Type := mkOptions {
  opt_params : GraphQLParams;
  opt_request : Request;
  opt_contextFactory : M HttpContext
}.

(** The initial context handed to envelop's context factory on the
    WebSocket path. *)
Record WsInitialContext : Type := mkWsInitial {
  init_connectionParams : JsValue;
  init_socket : JsValue;
  init_request : JsValue
}.

Class Engine : Type := {
  Schema : Type;
  DocumentNode : Type;
  EnvelopedContext : Type;
  (** [getEnveloped().schema] *)
  schema : Schema;
  shouldRenderGraphiQL : Request → bool;
  renderGraphiQL : string → string;
  getGraphQLParameters : Request → GraphQLParams;
  processRequest : ProcessRequestOptions → M ProcessRequestResult;
  parse : string → exn + DocumentNode;
  validate : Schema → DocumentNode → list GraphQLError;
  envelopContextFactory : WsInitialContext → exn + EnvelopedContext;
  (** [JSON.stringify] of an execution result, as UTF-8 bytes *)
  JSON_stringify : ExecutionResult → string
}.

(** ** src/index.ts: the HTTP route *)

Definition CRLF : string := String "013"%char (String "010"%char "").

(** [app] is a fastify instance, so the route handler receives fastify's
    request and reply objects, not Node's.  A reply has [type], [status]
    and [send]; it has no [setHeader], [writeHead], [write] or [end], and
    a request has no [on].  Calling a method that an object does not have
    throws a [TypeError]. *)
Definition provided (ev : Event) : bool :=
  match ev with
  | ResSetHeader _ _ | ResWriteHead _ _ | ResWrite _ | ResEnd | ReqOn _ => false
  | _ => true
  end.

Definition method_name (ev : Event) : string :=
  match ev with
  | CallGetUserId _ _ => "getUserId"
  | CallJwtVerify _ _ => "jwt.verify"
  | ResType _ => "res.type"
  | ResSetHeader _ _ => "res.setHeader"
  | ResStatus _ => "res.status"
  | ResSend _ => "res.send"
  | ResWriteHead _ _ => "res.writeHead"
  | ReqOn _ => "req.on"
  | ResWrite _ => "res.write"
  | ResEnd => "res.end"
  | CallUnsubscribe => "result.unsubscribe"
  end.

(** A method call on [res] or [req]. *)
Definition call (ev : Event) : M unit :=
  if provided ev then emit ev
  else throw (LibError "TypeError" (method_name ev +:+ " is not a function")).

Section Http.
Context `{JwtLib} `{Engine}.

(** The [contextFactory] option passed to [processRequest].  [req] is the
    route's request object, which is truthy, so the guard
    [req && req.headers.authorization] is the truthiness of the header. *)
Definition contextFactory (req : Request) : M HttpContext :=
  uid ← (if truthy_prop (authorization req)
         then getUserId (Some req) None
         else mret VNull) ;
  mret {| ctx_req := req; ctx_prisma := prisma; userId := uid |}.

(** The callback given to [result.subscribe]: one multipart part. *)
Definition part (result : ExecutionResult) : string :=
  let chunk := JSON_stringify result in
  let parts :=
    [ "";
      "Content-Type: application/json; charset=utf-8";
      "Content-Length: " +:+ pretty (String.length chunk);
      "";
      chunk ] in
  let parts := if hasNext result then (parts ++ ["---"])%list else parts in
  join CRLF parts.

Definition closing_boundary : string := CRLF +:+ "-----" +:+ CRLF.

(** The handler's reactions while the stream is open: the [subscribe]
    callback, the ["close"] listener, and the statements after
    [await result.subscribe(...)], which run while [awaiting] holds.  An
    exception of a reaction ends the run. *)
Fixpoint stream (awaiting : bool) (run : list StreamEvent) : M unit :=
  match run with
  | [] => mret tt
  | EngineResult r :: rest =>
      call (ResWrite (part r)) ;; stream awaiting rest
  | ClientClose :: rest =>
      emit CallUnsubscribe ;; stream awaiting rest
  | SubscribeResolved :: rest =>
      (if awaiting
       then call (ResWrite closing_boundary) ;; call ResEnd
       else mret tt) ;;
      stream false rest
  end.

(** [result.headers.forEach(({ name, value }) => res.setHeader(name, value))] *)
Fixpoint setHeaders (hdrs : list (string * string)) : M unit :=
  match hdrs with
  | [] => mret tt
  | (name, value) :: rest => call (ResSetHeader name value) ;; setHeaders rest
  end.

(** The branches on [result.type] that follow [processRequest]: the two
    named types, and the final [else] for every other result. *)
Definition respond (result : ProcessRequestResult) : M unit :=
  match result with
  | Response status hdrs payload =>
      setHeaders hdrs ;;
      call (ResStatus status) ;;
      call (ResSend (BodyJson payload))
  | MultipartResponse run =>
      call (ResWriteHead 200
              [ ("Connection", "keep-alive");
                ("Content-Type", "multipart/mixed; boundary=" +:+
                                 String "034"%char ("-" +:+ String "034"%char ""));
                ("Transfer-Encoding", "chunked") ]) ;;
      call (ReqOn "close") ;;
      call (ResWrite "---") ;;
      stream true run
  | _ =>
      call (ResStatus 422) ;;
      call (ResSend (BodyErrors
        [ mkGraphQLError "Subscriptions should be sent over WebSocket." ]))
  end.

(** The object [{ body, headers, method, query }] built from [req]. *)
Definition request_object (req : Request) : Request :=
  {| body := body req; headers := headers req;
     method := method req; query := query req |}.

Definition handler (req : Request) : M unit :=
  let request := request_object req in
  if shouldRenderGraphiQL request then
    call (ResType "text/html") ;;
    call (ResSend (BodyHtml (renderGraphiQL "ws://localhost:4000/graphql")))
  else
    let request := request_object req in
    let params := getGraphQLParameters request in
    result ← processRequest {| opt_params := params;
                               opt_request := request;
                               opt_contextFactory := contextFactory req |} ;
    respond result.
End Http.

(** The context of a request without identity. *)
Definition anonymous (req : Request) : HttpContext :=
  {| ctx_req := req; ctx_prisma := prisma; userId := VNull |}.

(** ** src/index.ts: the WebSocket hooks *)

(** A [subscribe] message's payload. *)
Record SubscribePayload : Type := mkSubscribePayload {
  sub_operationName : JsValue;
  sub_query : string;
  sub_variables : JsValue
}.

(** The connection context [ctx] of graphql-ws. *)
Record WsContext : Type := mkWsContext {
  connectionParams : JsValue;
  extra_socket : JsValue;
  extra_request : JsValue
}.

(** The context returned by [onConnect]: [{ prisma }] or
    [{ prisma, userId }]. *)
Record ConnectContext : Type := mkConnectContext {
  conn_prisma : PrismaClient;
  conn_userId : option JsValue
}.

Section WebSocket.
Context `{JwtLib} `{Engine}.

Record ExecutionArgs : Type := mkArgs {
  args_schema : Schema;
  args_operationName : JsValue;
  args_document : DocumentNode;
  args_variableValues : JsValue;
  args_contextValue : EnvelopedContext
}.

(** What [onSubscribe] returns.  graphql-ws executes the operation with
    returned arguments, and sends returned errors to the client as the
    operation's error message without executing anything. *)
Inductive OnSubscribeResult : Type :=
  | ReturnArgs (args : ExecutionArgs)
  | ReturnErrors (errors : list GraphQLError).

Definition onSubscribe (ctx : WsContext) (msg : SubscribePayload)
  : M OnSubscribeResult :=
  let schema := schema in
  document ← lift (parse (sub_query msg)) ;
  contextValue ← lift (envelopContextFactory
    {| init_connectionParams := connectionParams ctx;
       init_socket := extra_socket ctx;
       init_request := extra_request ctx |}) ;
  let args := {| args_schema := schema;
                 args_operationName := sub_operationName msg;
                 args_document := document;
                 args_variableValues := sub_variables msg;
                 args_contextValue := contextValue |} in
  let errors := validate (args_schema args) (args_document args) in
  if negb (Nat.eqb (length errors) 0) then mret (ReturnErrors errors)
  else mret (ReturnArgs args).

(** [authToken] is what the hook reads as [connectionParams.authToken]:
    the [authToken] property of its first argument, [None] when that
    object has no such property.  graphql-ws calls the hook with the
    connection context, which keeps the handshake parameters in its
    [connectionParams] property and has no [authToken] of its own. *)
Definition onConnect (authToken : option string) : M ConnectContext :=
  if truthy_prop authToken then
    uid ← getUserId None authToken ;
    mret {| conn_prisma := prisma; conn_userId := Some uid |}
  else
    mret {| conn_prisma := prisma; conn_userId := None |}.
End WebSocket.

(** ** Fixtures: small instances of the library interfaces *)

Module Fixture.

(** Tokens are [secret.uSUBJECT] for an object payload with a string
    subject, [secret.sTEXT] for a string payload and [secret.-]
    otherwise. *)
Definition sign (payload : Decoded) (secret : string) : string :=
  secret +:+ "." +:+
  match payload with
  | DString s => "s" +:+ s
  | DObject claims =>
      match claims !! "userId" with
      | Some (VStr u) => "u" +:+ u
      | _ => "-"
      end
  end.

Definition verify (token secret : string) : exn + Decoded :=
  if negb (truthy_string token) then
    inl (LibError "JsonWebTokenError" "jwt must be provided")
  else if String.prefix (secret +:+ ".") token then
    match drop_chars (String.length secret + 1) token with
    | String "u" u => inr (DObject {[ "userId" := VStr u ]})
    | String "s" s => inr (DString s)
    | _ => inr (DObject ∅)
    end
  else inl (LibError "JsonWebTokenError" "invalid signature").

#[export] Instance jwt : JwtLib :=
  {| jwt_sign := sign; jwt_verify := verify;
     jwt_verify_empty := fun _ => eq_refl |}.

(** An engine that answers every request with a result of type [PUSH]
    and rejects every document. *)
#[export] Instance engine : Engine :=
  {| Schema := unit;
     DocumentNode := string;
     EnvelopedContext := WsInitialContext;
     schema := tt;
     shouldRenderGraphiQL := fun _ => false;
     renderGraphiQL := fun endpoint => endpoint;
     getGraphQLParameters := fun r =>
       {| operationName := VUndefined; queryText := query r;
          variables := VUndefined |};
     processRequest := fun opts =>
       _ ← opt_contextFactory opts ;
       mret (Push []);
     parse := fun q => inr q;
     validate := fun _ d => [ mkGraphQLError ("Cannot query " +:+ d) ];
     envelopContextFactory := fun init => inr init;
     JSON_stringify := fun _ => "{}" |}.

(** Requests: one with the given [authorization] header, one without
    headers. *)
Definition request_with (authHeader : string) : Request :=
  {| body := VNull;
     headers := {[ "authorization" := authHeader ]};
     method := "POST";
     query := VNull |}.

Definition no_headers : Request :=
  {| body := VNull; headers := ∅; method := "POST"; query := VNull |}.

(** Tokens: one for the subject ["42"], one for the payload [{}]. *)
Definition subject42 : gmap string JsValue := {[ "userId" := VStr "42" ]}.
Definition token42 : string := sign (DObject subject42) APP_SECRET.
Definition token_without_subject : string := sign (DObject ∅) APP_SECRET.

(** A subscribe message on some connection. *)
Definition some_context : WsContext :=
  {| connectionParams := VNull; extra_socket := VNull; extra_request := VNull |}.

Definition some_message : SubscribePayload :=
  {| sub_operationName := VNull; sub_query := "{ nothing }";
     sub_variables := VNull |}.

(** A second engine.  It serves the GraphiQL page on [GET], answers other
    requests with a single response that shows the identity of the
    context, fails to parse the empty query, accepts the document
    [{ ok }] only, and fails to build a context when the handshake
    parameters are [false]. *)
Definition helix : Engine :=
  {| Schema := unit;
     DocumentNode := string;
     EnvelopedContext := WsInitialContext;
     schema := tt;
     shouldRenderGraphiQL := fun r => String.eqb (method r) "GET";
     renderGraphiQL := fun endpoint => "<html>" +:+ endpoint +:+ "</html>";
     getGraphQLParameters := fun r =>
       {| operationName := VUndefined; queryText := query r;
          variables := VUndefined |};
     processRequest := fun opts =>
       ctx ← opt_contextFactory opts ;
       mret (Response 200
               [ ("Content-Type", "application/json");
                 ("Cache-Control", "no-store") ]
               (VObj [("viewer", userId ctx)]));
     parse := fun q =>
       if truthy_string q then inr q
       else inl (LibError "GraphQLError" "Syntax Error: Unexpected <EOF>.");
     validate := fun _ d =>
       if String.eqb d "{ ok }" then []
       else [ mkGraphQLError ("Cannot query " +:+ d) ];
     envelopContextFactory := fun init =>
       match init_connectionParams init with
       | VBool false => inl (Error "context")
       | _ => inr init
       end;
     JSON_stringify := fun r => if hasNext r then "{more}" else "{}" |}.

Definition page_request : Request :=
  {| body := VNull; headers := {[ "authorization" := "Bearer " ]};
     method := "GET"; query := VNull |}.

Definition ok_message : SubscribePayload :=
  {| sub_operationName := VStr "Feed"; sub_query := "{ ok }";
     sub_variables := VNull |}.

Definition empty_message : SubscribePayload :=
  {| sub_operationName := VNull; sub_query := ""; sub_variables := VNull |}.

Definition refused_context : WsContext :=
  {| connectionParams := VBool false; extra_socket := VNull;
     extra_request := VNull |}.

(** A token library with a clock.  A token is [secret.EXP.SUBJECT], [EXP]
    being the decimal [exp] claim or [-].  [clocked now] is the library at
    time [now]: it rejects a token whose [exp] is not after [now]. *)
Fixpoint digits (acc : Z) (s : string) : option Z :=
  match s with
  | EmptyString => Some acc
  | String c s' =>
      let d := (Z.of_nat (nat_of_ascii c) - 48)%Z in
      if ((0 <=? d) && (d <=? 9))%Z then digits (10 * acc + d)%Z s' else None
  end.

Fixpoint until_dot (s : string) : string * string :=
  match s with
  | EmptyString => ("", "")
  | String c s' =>
      if Ascii.eqb c "."%char then ("", s')
      else let '(before, after) := until_dot s' in (String c before, after)
  end.

Definition sign_with_expiry (payload : Decoded) (secret : string) : string :=
  match payload with
  | DString s => secret +:+ ".-." +:+ s
  | DObject claims =>
      secret +:+ "." +:+
      match claims !! "exp" with Some (VNum e) => pretty e | _ => "-" end
      +:+ "." +:+
      match claims !! "userId" with Some (VStr u) => u | _ => "" end
  end.

Definition verify_at (now : Z) (token secret : string) : exn + Decoded :=
  if negb (truthy_string token) then
    inl (LibError "JsonWebTokenError" "jwt must be provided")
  else if String.prefix (secret +:+ ".") token then
    let '(e, u) := until_dot (drop_chars (String.length secret + 1) token) in
    match digits 0 e with
    | Some exp =>
        if (exp <=? now)%Z then inl (LibError "TokenExpiredError" "jwt expired")
        else inr (DObject (<[ "exp" := VNum exp ]> {[ "userId" := VStr u ]}))
    | None => inr (DObject {[ "userId" := VStr u ]})
    end
  else inl (LibError "JsonWebTokenError" "invalid signature").

Definition clocked (now : Z) : JwtLib :=
  {| jwt_sign := sign_with_expiry; jwt_verify := verify_at now;
     jwt_verify_empty := fun _ => eq_refl |}.

(** The subject ["42"], valid until time 100, and its token. *)
Definition subject42_until100 : gmap string JsValue :=
  <[ "exp" := VNum 100 ]> {[ "userId" := VStr "42" ]}.

Definition token42_until100 : string :=
  sign_with_expiry (DObject subject42_until100) APP_SECRET.

End Fixture.

(** ** Reading traces *)

(** The tokens handed to [jwt.verify], in call order. *)
Fixpoint verify_calls (t : list Event) : list string :=
  match t with
  | [] => []
  | CallJwtVerify token _ :: rest => token :: verify_calls rest
  | _ :: rest => verify_calls rest
  end.

(** The calls of [result.unsubscribe()] in a trace. *)
Fixpoint unsubscribe_count (t : list Event) : nat :=
  match t with
  | [] => 0
  | CallUnsubscribe :: rest => S (unsubscribe_count rest)
  | _ :: rest => unsubscribe_count rest
  end.

(** The data passed to [res.write], in order. *)
Fixpoint writes (t : list Event) : list string :=
  match t with
  | [] => []
  | ResWrite d :: rest => d :: writes rest
  | _ :: rest => writes rest
  end.

(** [jwt.verify] accepts the token with [APP_SECRET] and returns the
    claims of [payload]; [iat] is the one claim the library adds when it
    signs. *)
Definition accepts `{JwtLib} (token : string) (payload : gmap string JsValue)
  : Prop :=
  ∃ decoded,
    jwt_verify token APP_SECRET = inr (DObject decoded)
    ∧ ∀ claim, claim ≠ "iat" → decoded !! claim = payload !! claim.

(** The outcomes of resolving one credential at each of the given times,
    [lib now] being the token library as it behaves at time [now]. *)
Definition resolutions (lib : Z → JwtLib) (req : option Request)
    (raw : option string) (times : list Z) : list (exn + JsValue) :=
  map (fun now => outcome (@getUserId (lib now) req raw)) times.

(** The decoded payload has no [userId] property. *)
Definition lacks_subject (payload : Decoded) : Prop :=
  match payload with
  | DString _ => True
  | DObject claims => claims !! "userId" = None
  end.

(** ** Further readers of strings *)

Fixpoint take_chars (n : nat) (s : string) : string :=
  match n, s with
  | O, _ => EmptyString
  | S _, EmptyString => EmptyString
  | S n', String c s' => String c (take_chars n' s')
  end.

(** [s.indexOf(pat)]; [None] stands for [-1]. *)
Fixpoint indexOf (pat s : string) : option nat :=
  if String.prefix pat s then Some 0
  else match s with
       | EmptyString => None
       | String _ s' => S <$> indexOf pat s'
       end.

(** * Properties *)

(** ** Strings *)

Lemma replace_unfold pat rep s :
  replace pat rep s =
  if String.prefix pat s then rep +:+ drop_chars (String.length pat) s
  else match s with
       | EmptyString => EmptyString
       | String c s' => String c (replace pat rep s')
       end.
Proof. destruct s; reflexivity. Qed.

Lemma includes_unfold pat s :
  includes pat s =
  if String.prefix pat s then true
  else match s with
       | EmptyString => false
       | String _ s' => includes pat s'
       end.
Proof. destruct s; reflexivity. Qed.

Lemma prefix_app pat s : String.prefix pat (pat +:+ s) = true.
Proof.
  induction pat as [|c pat IH]; simpl.
  - destruct s; reflexivity.
  - destruct (ascii_dec c c); [exact IH | congruence].
Qed.

Lemma drop_chars_app pat s : drop_chars (String.length pat) (pat +:+ s) = s.
Proof. induction pat as [|c pat IH]; simpl; [reflexivity | exact IH]. Qed.

(** A string that starts with the pattern loses exactly that prefix. *)
Lemma replace_prefix pat rep s : replace pat rep (pat +:+ s) = rep +:+ s.
Proof.
  rewrite replace_unfold, prefix_app, drop_chars_app. reflexivity.
Qed.

(** A string without the pattern is returned as it is. *)
Lemma replace_absent pat rep s : includes pat s = false → replace pat rep s = s.
Proof.
  induction s as [|c s IH]; rewrite includes_unfold, replace_unfold;
    destruct (String.prefix pat _); try discriminate; [reflexivity |].
  intros Hs. rewrite (IH Hs). reflexivity.
Qed.

Lemma prefix_drop_empty pat s :
  String.prefix pat s = true → drop_chars (String.length pat) s = "" → s = pat.
Proof.
  revert s. induction pat as [|c pat IH]; intros s; simpl.
  - destruct s; simpl; intros _ Hd; [reflexivity | exact Hd].
  - destruct s as [|d s]; simpl; [discriminate |].
    destruct (ascii_dec c d) as [->|]; [| discriminate].
    intros Hp Hd. f_equal. apply IH; assumption.
Qed.

(** Only the empty string and the pattern itself are erased completely. *)
Lemma replace_empty_inv pat s : replace pat "" s = "" → s = "" ∨ s = pat.
Proof.
  rewrite replace_unfold. destruct (String.prefix pat s) eqn:Hp.
  - simpl. intros Hd. right. apply prefix_drop_empty; assumption.
  - destruct s; [left; reflexivity | discriminate].
Qed.

Lemma truthy_string_true s : s ≠ "" → truthy_string s = true.
Proof. destruct s; [congruence | reflexivity]. Qed.

(** ** The identity resolver, case by case *)

Section Resolver.
Context `{JwtLib}.

Lemma getUserId_header req raw authHeader :
  authorization req = Some authHeader →
  authHeader ≠ "" →
  replace "Bearer " "" authHeader ≠ "" →
  getUserId (Some req) raw =
    ([ CallGetUserId (Some req) raw;
       CallJwtVerify (replace "Bearer " "" authHeader) APP_SECRET ],
     resolved (replace "Bearer " "" authHeader)).
Proof.
  intros Hh Hne Htok. unfold getUserId, resolved. rewrite Hh.
  rewrite (truthy_string_true _ Hne), (truthy_string_true _ Htok).
  unfold getTokenPayload. simpl.
  destruct (jwt_verify _ APP_SECRET); reflexivity.
Qed.

Lemma getUserId_header_stripped_empty req raw authHeader :
  authorization req = Some authHeader →
  authHeader ≠ "" →
  replace "Bearer " "" authHeader = "" →
  getUserId (Some req) raw =
    ([ CallGetUserId (Some req) raw ], inl (Error "No token found")).
Proof.
  intros Hh Hne Htok. unfold getUserId. rewrite Hh.
  rewrite (truthy_string_true _ Hne), Htok. reflexivity.
Qed.

Lemma getUserId_header_falsy req raw :
  truthy_prop (authorization req) = false →
  getUserId (Some req) raw =
    ([ CallGetUserId (Some req) raw ], inl (Error "Not authenticated")).
Proof.
  unfold getUserId, truthy_prop.
  destruct (authorization req) as [h|]; [| reflexivity].
  intros ->. reflexivity.
Qed.

Lemma getUserId_raw token :
  token ≠ "" →
  getUserId None (Some token) =
    ([ CallGetUserId None (Some token); CallJwtVerify token APP_SECRET ],
     resolved token).
Proof.
  intros Hne. unfold getUserId, resolved.
  rewrite (truthy_string_true _ Hne). unfold getTokenPayload. simpl.
  destruct (jwt_verify _ APP_SECRET); reflexivity.
Qed.

(** A token the library accepts is not the empty string. *)
Lemma verified_nonempty token secret payload :
  jwt_verify token secret = inr payload → token ≠ "".
Proof. intros Hv ->. rewrite jwt_verify_empty in Hv. discriminate. Qed.

Lemma bearer_header_strips token :
  replace "Bearer " "" ("Bearer " +:+ token) = token.
Proof. apply (replace_prefix "Bearer " "" token). Qed.

Lemma bearer_header_nonempty token : "Bearer " +:+ token ≠ "".
Proof. discriminate. Qed.

(** A token that the library accepts for a payload with a subject
    resolves to that subject, from a header [Bearer <token>] and from the
    raw token. *)
Lemma accepted_token_resolves
    (token : string) (payload : gmap string JsValue) (subject : JsValue) :
  payload !! "userId" = Some subject →
  accepts token payload →
  (∀ req, authorization req = Some ("Bearer " +:+ token) →
          outcome (getUserId (Some req) None) = inr subject)
  ∧ outcome (getUserId None (Some token)) = inr subject.
Proof.
  intros Hsubject (decoded & Hverify & Hclaims).
  assert (Hne : token ≠ "") by exact (verified_nonempty _ _ _ Hverify).
  assert (Hres : resolved token = inr subject).
  { unfold resolved. rewrite Hverify. simpl.
    rewrite Hclaims by discriminate. rewrite Hsubject. reflexivity. }
  split.
  - intros req Hh.
    rewrite (getUserId_header _ _ _ Hh (bearer_header_nonempty token));
      rewrite bearer_header_strips; [exact Hres | exact Hne].
  - rewrite (getUserId_raw _ Hne). exact Hres.
Qed.

(** Claim C3 (as the code has it).  A header value that stripping turns
    into the empty string is either ["Bearer "] or the empty string
    itself.  The first fails with [MissingToken] before any verification;
    the second never reaches the stripping and fails with
    [NotAuthenticated]. *)
Theorem stripped_empty_header_fails (req : Request) (authHeader : string) :
  authorization req = Some authHeader →
  replace "Bearer " "" authHeader = "" →
  (authHeader ≠ "" →
     authHeader = "Bearer "
     ∧ outcome (getUserId (Some req) None) = inl MissingToken
     ∧ verify_calls (trace (getUserId (Some req) None)) = [])
  ∧ (authHeader = "" →
     outcome (getUserId (Some req) None) = inl NotAuthenticated).
Proof.
  intros Hh Hstrip. split.
  - intros Hne. split.
    + destruct (replace_empty_inv _ _ Hstrip); [contradiction | assumption].
    + rewrite (getUserId_header_stripped_empty _ _ _ Hh Hne Hstrip).
      split; reflexivity.
  - intros ->. rewrite getUserId_header_falsy; [reflexivity |].
    rewrite Hh. reflexivity.
Qed.

(** Claim C4 (as the code has it).  When the signature verifies and the
    decoded payload has no subject field, resolution returns normally
    and the identity is [undefined]; this holds for the header form and
    for the raw-token form. *)
Theorem missing_subject_resolves_to_undefined
    (token : string) (payload : Decoded) :
  jwt_verify token APP_SECRET = inr payload →
  lacks_subject payload →
  (∀ req, authorization req = Some ("Bearer " +:+ token) →
          outcome (getUserId (Some req) None) = inr VUndefined)
  ∧ outcome (getUserId None (Some token)) = inr VUndefined.
Proof.
  intros Hverify Hlacks.
  assert (Hne : token ≠ "") by exact (verified_nonempty _ _ _ Hverify).
  assert (Hres : resolved token = inr VUndefined).
  { unfold resolved. rewrite Hverify.
    destruct payload as [s|claims]; simpl in *; [reflexivity |].
    rewrite Hlacks. reflexivity. }
  split.
  - intros req Hh.
    rewrite (getUserId_header _ _ _ Hh (bearer_header_nonempty token));
      rewrite bearer_header_strips; [exact Hres | exact Hne].
  - rewrite (getUserId_raw _ Hne). exact Hres.
Qed.

(** Claim C5 (as the code has it).  For a non-empty header value in which
    ["Bearer "] occurs nowhere, the one token handed to [jwt.verify] is
    the header value itself. *)
Theorem header_without_scheme_is_verified_whole
    (req : Request) (authHeader : string) :
  authorization req = Some authHeader →
  authHeader ≠ "" →
  includes "Bearer " authHeader = false →
  verify_calls (trace (getUserId (Some req) None)) = [authHeader].
Proof.
  intros Hh Hne Habsent.
  pose proof (replace_absent "Bearer " "" _ Habsent) as Hsame.
  rewrite (getUserId_header _ _ _ Hh Hne); rewrite Hsame;
    [reflexivity | exact Hne].
Qed.

(** Claim C10.  With a request object, the raw token plays no part: the
    outcome and the tokens verified are those of the call without it.
    Without an [authorization] header the call fails with
    [NotAuthenticated] and verifies nothing, whatever the raw token. *)
Theorem header_form_takes_precedence (req : Request) (authToken : string) :
  (outcome (getUserId (Some req) (Some authToken))
     = outcome (getUserId (Some req) None)
   ∧ verify_calls (trace (getUserId (Some req) (Some authToken)))
     = verify_calls (trace (getUserId (Some req) None)))
  ∧ (authorization req = None →
     outcome (getUserId (Some req) (Some authToken)) = inl NotAuthenticated
     ∧ verify_calls (trace (getUserId (Some req) (Some authToken))) = []).
Proof.
  split.
  - unfold getUserId. destruct (authorization req) as [h|]; [| split; reflexivity].
    destruct (truthy_string h); [| split; reflexivity].
    destruct (negb _); [split; reflexivity |].
    unfold getTokenPayload. simpl.
    destruct (jwt_verify _ APP_SECRET); split; reflexivity.
  - intros Hnone. rewrite getUserId_header_falsy; [split; reflexivity |].
    rewrite Hnone. reflexivity.
Qed.
End Resolver.

(** ** Resolution over time *)

(** Claim C1 (as the code has it).  A payload with subject [subject] is
    signed with [APP_SECRET] at time [issued].  At every time at which
    [jwt.verify] accepts the token and returns the payload's claims,
    resolving it gives exactly [subject], from a header [Bearer <token>]
    (whatever the other headers are) and from the raw token; so repeated
    resolutions, at any times at which the token is accepted, give
    [subject] each time. *)
Theorem signed_subject_resolves_while_accepted
    (lib : Z → JwtLib) (payload : gmap string JsValue) (subject : JsValue)
    (issued : Z) (times : list Z) :
  payload !! "userId" = Some subject →
  let token := @jwt_sign (lib issued) (DObject payload) APP_SECRET in
  Forall (fun now => @accepts (lib now) token payload) times →
  (∀ req, authorization req = Some ("Bearer " +:+ token) →
          resolutions lib (Some req) None times
          = map (fun _ => inr subject) times)
  ∧ resolutions lib None (Some token) times = map (fun _ => inr subject) times.
Proof.
  intros Hsubject token Haccepted. unfold resolutions.
  induction Haccepted as [|now times Hnow _ [IHheader IHraw]].
  - split; [intros req _ |]; reflexivity.
  - destruct (@accepted_token_resolves (lib now) token payload subject
                Hsubject Hnow) as [Hheader Hraw].
    split.
    + intros req Hh. simpl. rewrite (Hheader req Hh), (IHheader req Hh).
      reflexivity.
    + simpl. rewrite Hraw, IHraw. reflexivity.
Qed.

(** ** The HTTP route *)

Section HttpProperties.
Context `{JwtLib} `{Engine}.

Lemma contextFactory_falsy req :
  truthy_prop (authorization req) = false →
  contextFactory req = ([], inr (anonymous req)).
Proof. intros Hf. unfold contextFactory. rewrite Hf. reflexivity. Qed.

(** Claim C2.  Without an [authorization] header the context is built
    with a [null] identity: nothing is thrown, and the empty trace shows
    that [getUserId] was not called. *)
Theorem no_authorization_header_is_anonymous (req : Request) :
  authorization req = None →
  contextFactory req = ([], inr (anonymous req))
  ∧ userId (anonymous req) = VNull.
Proof.
  intros Hnone. split; [| reflexivity].
  apply contextFactory_falsy. rewrite Hnone. reflexivity.
Qed.

(** Claim C9.  An [authorization] header that is present and empty is
    falsy for the guard: the context is built with a [null] identity,
    [getUserId] is not called, and so neither of its errors can arise. *)
Theorem empty_authorization_header_is_anonymous (req : Request) :
  authorization req = Some "" →
  contextFactory req = ([], inr (anonymous req))
  ∧ userId (anonymous req) = VNull
  ∧ outcome (contextFactory req) ≠ inl MissingToken.
Proof.
  intros Hempty.
  assert (Hc : contextFactory req = ([], inr (anonymous req))).
  { apply contextFactory_falsy. rewrite Hempty. reflexivity. }
  rewrite Hc. repeat split. discriminate.
Qed.

(** Claim C6.  When the request is not a GraphiQL page load and
    [processRequest] returns a result whose type is neither [RESPONSE]
    nor [MULTIPART_RESPONSE], the handler sets status 422 and sends a body
    whose [errors] array has the single entry
    "Subscriptions should be sent over WebSocket."; it does nothing else
    with the response. *)
Theorem other_result_is_rejected_with_422
    (req : Request) (t : list Event) (result : ProcessRequestResult) :
  shouldRenderGraphiQL (request_object req) = false →
  processRequest
    {| opt_params := getGraphQLParameters (request_object req);
       opt_request := request_object req;
       opt_contextFactory := contextFactory req |} = (t, inr result) →
  result_type result ≠ "RESPONSE" →
  result_type result ≠ "MULTIPART_RESPONSE" →
  handler req
  = ((t ++ [ ResStatus 422;
             ResSend (BodyErrors
               [ mkGraphQLError "Subscriptions should be sent over WebSocket." ]) ])%list,
     inr tt).
Proof.
  intros Hpage Hproc Hr Hm. unfold handler. rewrite Hpage, Hproc.
  destruct result as [st hs pl|run|run]; simpl in Hr, Hm; try congruence.
  reflexivity.
Qed.
End HttpProperties.

(** ** The multipart branch *)

Section MultipartProperties.
Context `{Engine}.

(** Claim C7 (what the code does).  For a multipart result the handler's
    first statement calls [res.writeHead], which fastify's reply does not
    have: the branch throws a [TypeError] there.  The ["close"] listener
    is never registered, so [unsubscribe] is not called when the client
    disconnects, and nothing is written, whatever the run of the stream. *)
Theorem multipart_response_throws_before_streaming (run : list StreamEvent) :
  respond (MultipartResponse run)
  = ([], inl (LibError "TypeError" "res.writeHead is not a function"))
  ∧ unsubscribe_count (trace (respond (MultipartResponse run))) = 0
  ∧ writes (trace (respond (MultipartResponse run))) = [].
Proof. repeat split. Qed.
End MultipartProperties.

(** ** The WebSocket hooks *)

Section WebSocketProperties.
Context `{Engine}.

(** Claim C8.  When the query of a subscribe message parses, the context
    is built, and validation of the parsed document against the schema
    reports errors, [onSubscribe] returns exactly those errors; it does
    not return execution arguments, so nothing is executed. *)
Theorem invalid_document_returns_errors
    (ctx : WsContext) (msg : SubscribePayload)
    (document : DocumentNode) (contextValue : EnvelopedContext) :
  parse (sub_query msg) = inr document →
  envelopContextFactory
    {| init_connectionParams := connectionParams ctx;
       init_socket := extra_socket ctx;
       init_request := extra_request ctx |} = inr contextValue →
  validate schema document ≠ [] →
  onSubscribe ctx msg = ([], inr (ReturnErrors (validate schema document)))
  ∧ ∀ args, outcome (onSubscribe ctx msg) ≠ inr (ReturnArgs args).
Proof.
  intros Hparse Hctx Herrors.
  assert (Hret : onSubscribe ctx msg
                 = ([], inr (ReturnErrors (validate schema document)))).
  { unfold onSubscribe. rewrite Hparse, Hctx. simpl.
    destruct (validate schema document); [contradiction | reflexivity]. }
  rewrite Hret. split; [reflexivity | discriminate].
Qed.
End WebSocketProperties.

(** ** Concrete runs *)

Section Runs.
Import Fixture.

Lemma token42_accepted_before (now : Z) :
  (now < 100)%Z → @accepts (clocked now) token42_until100 subject42_until100.
Proof.
  intros Hnow. exists subject42_until100. split; [| intros; reflexivity].
  change (jwt_verify token42_until100 APP_SECRET)
    with (if (100 <=? now)%Z
          then inl (LibError "TokenExpiredError" "jwt expired")
          else inr (DObject subject42_until100) : exn + Decoded).
  destruct (Z.leb_spec 100 now); [lia | reflexivity].
Defined.

Lemma signed_subject_resolves_while_accepted_witness :
  subject42_until100 !! "userId" = Some (VStr "42")
  ∧ Forall (fun now => @accepts (clocked now) token42_until100 subject42_until100)
      [10; 50; 99]%Z
  ∧ resolutions clocked
      (Some (request_with ("Bearer " +:+ token42_until100))) None [10; 50; 99]%Z
    = [inr (VStr "42"); inr (VStr "42"); inr (VStr "42")]
  ∧ resolutions clocked None (Some token42_until100) [10; 50; 99]%Z
    = [inr (VStr "42"); inr (VStr "42"); inr (VStr "42")].
Proof.
  assert (Haccepted : Forall (fun now => @accepts (clocked now) token42_until100
                                           subject42_until100) [10; 50; 99]%Z).
  { constructor; [apply token42_accepted_before; reflexivity |].
    constructor; [apply token42_accepted_before; reflexivity |].
    constructor; [apply token42_accepted_before; reflexivity |].
    constructor. }
  destruct (signed_subject_resolves_while_accepted clocked subject42_until100
              (VStr "42") 0 [10; 50; 99]%Z eq_refl Haccepted)
    as [Hheader Hraw].
  split; [reflexivity |]. split; [exact Haccepted |].
  split; [| exact Hraw].
  exact (Hheader (request_with ("Bearer " +:+ token42_until100)) eq_refl).
Defined.

(** C1 as stated fails on a signed payload that carries an expiry: once
    the time has passed, resolving the token throws instead of yielding
    the subject, and a resolution that succeeded before does not succeed
    again. *)
Lemma expired_signed_payload_is_rejected :
  subject42_until100 !! "userId" = Some (VStr "42")
  ∧ @jwt_sign (clocked 0) (DObject subject42_until100) APP_SECRET
    = token42_until100
  ∧ outcome (@getUserId (clocked 200)
               (Some (request_with ("Bearer " +:+ token42_until100))) None)
    = inl (LibError "TokenExpiredError" "jwt expired")
  ∧ outcome (@getUserId (clocked 200) None (Some token42_until100))
    = inl (LibError "TokenExpiredError" "jwt expired")
  ∧ resolutions clocked None (Some token42_until100) [50; 200]%Z
    = [inr (VStr "42"); inl (LibError "TokenExpiredError" "jwt expired")].
Proof. repeat split. Qed.

Lemma stripped_empty_header_fails_witness :
  authorization (request_with "Bearer ") = Some "Bearer "
  ∧ replace "Bearer " "" "Bearer " = ""
  ∧ outcome (getUserId (Some (request_with "Bearer ")) None) = inl MissingToken
  ∧ verify_calls (trace (getUserId (Some (request_with "Bearer ")) None)) = [].
Proof.
  destruct (stripped_empty_header_fails (request_with "Bearer ") "Bearer "
              eq_refl eq_refl) as [Hbearer _].
  destruct Hbearer as (_ & Hout & Hcalls); [discriminate |].
  repeat split; assumption.
Defined.

(** C3 as stated fails on an empty header value: stripping leaves it
    empty, and the failure is [NotAuthenticated]. *)
Lemma empty_header_is_not_missing_token :
  authorization (request_with "") = Some ""
  ∧ replace "Bearer " "" "" = ""
  ∧ outcome (getUserId (Some (request_with "")) None) = inl NotAuthenticated
  ∧ outcome (getUserId (Some (request_with "")) None) ≠ inl MissingToken.
Proof. repeat split. discriminate. Qed.

Lemma missing_subject_resolves_to_undefined_witness :
  jwt_verify token_without_subject APP_SECRET = inr (DObject ∅)
  ∧ lacks_subject (DObject ∅)
  ∧ outcome (getUserId
               (Some (request_with ("Bearer " +:+ token_without_subject))) None)
    = inr VUndefined
  ∧ outcome (getUserId None (Some token_without_subject)) = inr VUndefined.
Proof.
  assert (Hverify : jwt_verify token_without_subject APP_SECRET
                    = inr (DObject ∅)) by (vm_compute; reflexivity).
  assert (Hlacks : lacks_subject (DObject ∅)) by reflexivity.
  destruct (missing_subject_resolves_to_undefined token_without_subject
              (DObject ∅) Hverify Hlacks) as [Hheader Hraw].
  split; [exact Hverify |]. split; [exact Hlacks |]. split; [| exact Hraw].
  exact (Hheader (request_with ("Bearer " +:+ token_without_subject)) eq_refl).
Defined.

(** C4 as stated fails on a verified token whose payload is [{}]:
    resolution does not fail at all. *)
Lemma verified_token_without_subject_returns :
  jwt_verify token_without_subject APP_SECRET = inr (DObject ∅)
  ∧ lacks_subject (DObject ∅)
  ∧ outcome (getUserId None (Some token_without_subject)) = inr VUndefined
  ∧ ∀ e : exn, outcome (getUserId None (Some token_without_subject)) ≠ inl e.
Proof. repeat split. discriminate. Qed.

Lemma header_without_scheme_is_verified_whole_witness :
  authorization (request_with "Token abc") = Some "Token abc"
  ∧ "Token abc" ≠ ""
  ∧ includes "Bearer " "Token abc" = false
  ∧ verify_calls (trace (getUserId (Some (request_with "Token abc")) None))
    = ["Token abc"].
Proof.
  assert (Hne : "Token abc" ≠ "") by discriminate.
  split; [reflexivity |]. split; [exact Hne |]. split; [reflexivity |].
  exact (header_without_scheme_is_verified_whole (request_with "Token abc")
           "Token abc" eq_refl Hne eq_refl).
Defined.

(** C5 as stated fails on a header that does not start with ["Bearer "]
    but contains it: the occurrence is cut out before verification. *)
Lemma embedded_scheme_is_cut_out :
  authorization (request_with "Token Bearer abc") = Some "Token Bearer abc"
  ∧ "Token Bearer abc" ≠ ""
  ∧ String.prefix "Bearer " "Token Bearer abc" = false
  ∧ verify_calls (trace (getUserId (Some (request_with "Token Bearer abc")) None))
    = ["Token abc"]
  ∧ verify_calls (trace (getUserId (Some (request_with "Token Bearer abc")) None))
    ≠ ["Token Bearer abc"].
Proof. repeat split; discriminate. Qed.

Lemma header_form_takes_precedence_witness :
  authorization no_headers = None
  ∧ outcome (getUserId (Some no_headers) (Some token42)) = inl NotAuthenticated
  ∧ verify_calls (trace (getUserId (Some no_headers) (Some token42))) = [].
Proof.
  destruct (header_form_takes_precedence no_headers token42) as [_ Hnone].
  split; [reflexivity | exact (Hnone eq_refl)].
Defined.

Lemma no_authorization_header_is_anonymous_witness :
  authorization no_headers = None
  ∧ contextFactory no_headers = ([], inr (anonymous no_headers))
  ∧ userId (anonymous no_headers) = VNull.
Proof.
  split; [reflexivity |].
  exact (no_authorization_header_is_anonymous no_headers eq_refl).
Defined.

Lemma empty_authorization_header_is_anonymous_witness :
  authorization (request_with "") = Some ""
  ∧ contextFactory (request_with "") = ([], inr (anonymous (request_with "")))
  ∧ userId (anonymous (request_with "")) = VNull
  ∧ outcome (contextFactory (request_with "")) ≠ inl MissingToken.
Proof.
  split; [reflexivity |].
  exact (empty_authorization_header_is_anonymous (request_with "") eq_refl).
Defined.

Lemma other_result_is_rejected_with_422_witness :
  shouldRenderGraphiQL (request_object no_headers) = false
  ∧ result_type (Push []) ≠ "RESPONSE"
  ∧ result_type (Push []) ≠ "MULTIPART_RESPONSE"
  ∧ handler no_headers
    = ([ ResStatus 422;
         ResSend (BodyErrors
           [ mkGraphQLError "Subscriptions should be sent over WebSocket." ]) ],
       inr tt).
Proof.
  assert (Hr : result_type (Push []) ≠ "RESPONSE") by discriminate.
  assert (Hm : result_type (Push []) ≠ "MULTIPART_RESPONSE") by discriminate.
  split; [reflexivity |]. split; [exact Hr |]. split; [exact Hm |].
  exact (other_result_is_rejected_with_422 no_headers [] (Push [])
           eq_refl eq_refl Hr Hm).
Defined.

Lemma invalid_document_returns_errors_witness :
  parse (sub_query some_message) = inr "{ nothing }"
  ∧ validate schema "{ nothing }" ≠ []
  ∧ onSubscribe some_context some_message
    = ([], inr (ReturnErrors [mkGraphQLError "Cannot query { nothing }"]))
  ∧ ∀ args, outcome (onSubscribe some_context some_message) ≠ inr (ReturnArgs args).
Proof.
  assert (Herr : validate schema "{ nothing }" ≠ []) by discriminate.
  split; [reflexivity |]. split; [exact Herr |].
  exact (invalid_document_returns_errors some_context some_message
           "{ nothing }" _ eq_refl eq_refl Herr).
Defined.
End Runs.

(** * Further properties *)

(** ** Stripping the scheme *)

Lemma indexOf_unfold pat s :
  indexOf pat s =
  if String.prefix pat s then Some 0
  else match s with
       | EmptyString => None
       | String _ s' => S <$> indexOf pat s'
       end.
Proof. destruct s; reflexivity. Qed.

(** [replace] cuts the string at the index [indexOf] finds. *)
Lemma replace_at_index pat rep s i :
  indexOf pat s = Some i →
  replace pat rep s
  = take_chars i s +:+ rep +:+ drop_chars (i + String.length pat) s.
Proof.
  revert i. induction s as [|c s IH]; intros i;
    rewrite indexOf_unfold, replace_unfold;
    destruct (String.prefix pat _).
  - intros [= <-]. reflexivity.
  - discriminate.
  - intros [= <-]. reflexivity.
  - destruct (indexOf pat s) as [j|]; [| discriminate].
    intros [= <-]. simpl. rewrite (IH j eq_refl). reflexivity.
Qed.

Lemma indexOf_nonempty pat s i :
  pat ≠ "" → indexOf pat s = Some i → s ≠ "".
Proof.
  intros Hpat Hi ->. destruct pat; [congruence | discriminate].
Qed.

(** ** The identity resolver as a whole *)

Section ResolverCases.
Context `{JwtLib}.

(** Every call ends in one of four ways. *)
Lemma getUserId_cases req raw :
  getUserId req raw = ([CallGetUserId req raw], inl MissingToken)
  ∨ getUserId req raw = ([CallGetUserId req raw], inl NotAuthenticated)
  ∨ ∃ token,
      token ≠ ""
      ∧ getUserId req raw
        = ([CallGetUserId req raw; CallJwtVerify token APP_SECRET],
           resolved token).
Proof.
  destruct req as [r|].
  - destruct (authorization r) as [h|] eqn:Hh.
    + destruct h as [|c h'] eqn:Hc.
      * right. left. apply getUserId_header_falsy. rewrite Hh. reflexivity.
      * assert (Hne : String c h' ≠ "") by discriminate.
        destruct (replace "Bearer " "" (String c h')) as [|d tok] eqn:Htok.
        -- left. apply (getUserId_header_stripped_empty _ _ _ Hh Hne Htok).
        -- right. right. exists (String d tok). split; [discriminate |].
           rewrite <- Htok. apply (getUserId_header _ _ _ Hh Hne).
           rewrite Htok. discriminate.
    + right. left. apply getUserId_header_falsy. rewrite Hh. reflexivity.
  - destruct raw as [[|c tok]|].
    + right. left. reflexivity.
    + right. right. exists (String c tok). split; [discriminate |].
      unfold getUserId, resolved, getTokenPayload. simpl.
      destruct (jwt_verify _ APP_SECRET); reflexivity.
    + right. left. reflexivity.
Qed.

(** Extra X1.  Whatever the arguments, [getUserId] calls [jwt.verify] at most
    once, always with [APP_SECRET], and never with an empty token. *)
Theorem verification_happens_at_most_once
    (req : option Request) (raw : option string) :
  verify_calls (trace (getUserId req raw)) = []
  ∨ ∃ token,
      token ≠ ""
      ∧ trace (getUserId req raw)
        = [CallGetUserId req raw; CallJwtVerify token APP_SECRET].
Proof.
  destruct (getUserId_cases req raw) as [-> | [-> | (token & Hne & ->)]].
  - left. reflexivity.
  - left. reflexivity.
  - right. exists token. split; [exact Hne | reflexivity].
Qed.

(** Extra X2.  An identity is only ever the [userId] of a payload that
    [jwt.verify] returned for [APP_SECRET]: when [getUserId] returns, it
    has verified exactly one token, and the value is read from that
    token's payload. *)
Theorem identity_comes_from_a_verified_payload
    (req : option Request) (raw : option string) (identity : JsValue) :
  outcome (getUserId req raw) = inr identity →
  ∃ token payload,
    jwt_verify token APP_SECRET = inr payload
    ∧ identity = userId_of payload
    ∧ verify_calls (trace (getUserId req raw)) = [token].
Proof.
  destruct (getUserId_cases req raw) as [-> | [-> | (token & Hne & ->)]];
    try discriminate.
  unfold outcome, resolved. simpl. intros Hout.
  destruct (jwt_verify token APP_SECRET) as [e|payload] eqn:Hv; [discriminate |].
  injection Hout as <-. exists token, payload.
  split; [exact Hv |]. split; reflexivity.
Qed.

(** Extra X3.  When [jwt.verify] rejects the token, the library's exception
    leaves [getUserId] unchanged, from the raw form and from a header
    [Bearer <token>]. *)
Theorem rejected_token_error_propagates (token : string) (e : exn) :
  token ≠ "" →
  jwt_verify token APP_SECRET = inl e →
  outcome (getUserId None (Some token)) = inl e
  ∧ ∀ req, authorization req = Some ("Bearer " +:+ token) →
           outcome (getUserId (Some req) None) = inl e.
Proof.
  intros Hne Hv.
  assert (Hres : resolved token = inl e).
  { unfold resolved. rewrite Hv. reflexivity. }
  split.
  - rewrite (getUserId_raw _ Hne). exact Hres.
  - intros req Hh.
    rewrite (getUserId_header _ _ _ Hh (bearer_header_nonempty token));
      rewrite bearer_header_strips; [exact Hres | exact Hne].
Qed.

(** Extra X4.  For a non-empty token, the header [Bearer <token>] and the
    raw token are the same credential: same outcome, same token
    verified. *)
Theorem credential_forms_agree (req : Request) (token : string) :
  token ≠ "" →
  authorization req = Some ("Bearer " +:+ token) →
  outcome (getUserId (Some req) None) = outcome (getUserId None (Some token))
  ∧ verify_calls (trace (getUserId (Some req) None))
    = verify_calls (trace (getUserId None (Some token))).
Proof.
  intros Hne Hh.
  rewrite (getUserId_header _ _ _ Hh (bearer_header_nonempty token))
    by (rewrite bearer_header_strips; exact Hne).
  rewrite bearer_header_strips, (getUserId_raw _ Hne). split; reflexivity.
Qed.

(** Extra X5.  Without a request, a raw token that is absent or empty fails
    with [NotAuthenticated] and nothing is verified. *)
Theorem no_credential_is_not_authenticated (raw : option string) :
  truthy_prop raw = false →
  getUserId None raw = ([CallGetUserId None raw], inl NotAuthenticated).
Proof.
  destruct raw as [[|c tok]|]; simpl; intros Hf;
    [reflexivity | discriminate | reflexivity].
Qed.

(** Extra X6.  The token verified for a header is the header with the first
    occurrence of ["Bearer "] cut out, wherever that occurrence is:
    the characters before index [i] and those from [i + 7] on. *)
Theorem first_scheme_occurrence_is_cut_out
    (req : Request) (authHeader : string) (i : nat) :
  authorization req = Some authHeader →
  indexOf "Bearer " authHeader = Some i →
  take_chars i authHeader +:+ drop_chars (i + 7) authHeader ≠ "" →
  verify_calls (trace (getUserId (Some req) None))
  = [take_chars i authHeader +:+ drop_chars (i + 7) authHeader].
Proof.
  intros Hh Hi Htok.
  assert (Hne : authHeader ≠ "").
  { apply (indexOf_nonempty "Bearer " _ i); [discriminate | exact Hi]. }
  pose proof (replace_at_index "Bearer " "" _ _ Hi) as Hrep.
  change ("" +:+ drop_chars (i + String.length "Bearer ") authHeader)
    with (drop_chars (i + 7) authHeader) in Hrep.
  rewrite (getUserId_header _ _ _ Hh Hne); rewrite Hrep;
    [reflexivity | exact Htok].
Qed.
End ResolverCases.

(** ** Context construction on the HTTP path *)

Section ContextProperties.
Context `{JwtLib}.

Lemma contextFactory_truthy req :
  truthy_prop (authorization req) = true →
  contextFactory req
  = (trace (getUserId (Some req) None),
     match outcome (getUserId (Some req) None) with
     | inl e => inl e
     | inr identity =>
         inr {| ctx_req := req; ctx_prisma := prisma; userId := identity |}
     end).
Proof.
  intros Ht. unfold contextFactory. rewrite Ht.
  destruct (getUserId (Some req) None) as [t [e|identity]]; simpl;
    [reflexivity |].
  rewrite app_nil_r. reflexivity.
Qed.

(** Extra X7.  With a non-empty [authorization] header the context factory
    does what [getUserId] does: it performs the same calls, throws the
    same exception when [getUserId] throws, and otherwise returns the
    request's context with the identity [getUserId] returned. *)
Theorem context_follows_the_resolver (req : Request) :
  truthy_prop (authorization req) = true →
  trace (contextFactory req) = trace (getUserId (Some req) None)
  ∧ (∀ e, outcome (getUserId (Some req) None) = inl e →
          outcome (contextFactory req) = inl e)
  ∧ (∀ identity, outcome (getUserId (Some req) None) = inr identity →
          outcome (contextFactory req)
          = inr {| ctx_req := req; ctx_prisma := prisma; userId := identity |}).
Proof.
  intros Ht. rewrite (contextFactory_truthy req Ht). unfold outcome, trace.
  simpl. split; [reflexivity |].
  split; intros x Hx; rewrite Hx; reflexivity.
Qed.

(** Extra X8.  A request with the header [Bearer <token>], for a token that
    [jwt.verify] accepts, gets a context whose identity is the [userId]
    of the token's payload; the request and the database client are
    carried along. *)
Theorem bearer_token_gives_identified_context
    (req : Request) (token : string) (payload : Decoded) :
  authorization req = Some ("Bearer " +:+ token) →
  jwt_verify token APP_SECRET = inr payload →
  outcome (contextFactory req)
  = inr {| ctx_req := req; ctx_prisma := prisma; userId := userId_of payload |}.
Proof.
  intros Hh Hv.
  assert (Hne : token ≠ "") by exact (verified_nonempty _ _ _ Hv).
  rewrite contextFactory_truthy by (rewrite Hh; reflexivity).
  rewrite (getUserId_header _ _ _ Hh (bearer_header_nonempty token))
    by (rewrite bearer_header_strips; exact Hne).
  rewrite bearer_header_strips. unfold outcome, resolved. simpl.
  rewrite Hv. reflexivity.
Qed.

(** Extra X9.  A header that is exactly ["Bearer "] makes context
    construction throw [MissingToken]; no token is verified. *)
Theorem bare_scheme_fails_context_construction (req : Request) :
  authorization req = Some "Bearer " →
  outcome (contextFactory req) = inl MissingToken
  ∧ verify_calls (trace (contextFactory req)) = [].
Proof.
  intros Hh.
  rewrite contextFactory_truthy by (rewrite Hh; reflexivity).
  rewrite (getUserId_header_stripped_empty _ _ "Bearer " Hh)
    by (discriminate || reflexivity).
  split; reflexivity.
Qed.

(** Extra X10.  Whatever the request, a context that is built carries that
    request, and its identity is either [null], with [getUserId] not
    called, or the [userId] of a payload that [jwt.verify] returned for
    [APP_SECRET]. *)
Theorem context_identity_is_null_or_verified
    (req : Request) (ctx : HttpContext) :
  outcome (contextFactory req) = inr ctx →
  ctx_req ctx = req
  ∧ ((userId ctx = VNull ∧ trace (contextFactory req) = [])
     ∨ ∃ token payload,
         jwt_verify token APP_SECRET = inr payload
         ∧ userId ctx = userId_of payload
         ∧ verify_calls (trace (contextFactory req)) = [token]).
Proof.
  destruct (truthy_prop (authorization req)) eqn:Ht.
  - rewrite (contextFactory_truthy req Ht). unfold outcome at 1, trace at 1.
    simpl.
    destruct (getUserId_cases (Some req) None)
      as [Hg | [Hg | (token & Hne & Hg)]]; rewrite Hg; unfold outcome; simpl;
      try discriminate.
    unfold resolved.
    destruct (jwt_verify token APP_SECRET) as [e|payload] eqn:Hv;
      [discriminate |].
    intros [= <-]. split; [reflexivity |]. right.
    exists token, payload. split; [exact Hv |]. split; reflexivity.
  - rewrite (contextFactory_falsy req Ht). unfold outcome. simpl.
    intros [= <-]. split; [reflexivity |]. left. split; reflexivity.
Qed.
End ContextProperties.

(** ** The handler's other branches *)

Section HandlerProperties.
Context `{JwtLib} `{Engine}.

(** Extra X11.  A request for the GraphiQL page is answered with the page
    alone, rendered for the subscription endpoint
    [ws://localhost:4000/graphql]: no context is built and no token is
    verified, whatever the headers are. *)
Theorem graphiql_page_skips_identity (req : Request) :
  shouldRenderGraphiQL (request_object req) = true →
  handler req
  = ([ ResType "text/html";
       ResSend (BodyHtml (renderGraphiQL "ws://localhost:4000/graphql")) ],
     inr tt)
  ∧ verify_calls (trace (handler req)) = [].
Proof.
  intros Hpage. unfold handler. rewrite Hpage. split; reflexivity.
Qed.

(** Extra X12.  A single-shot result reaches the client only when it
    has no headers: then its status is set and its payload sent.  With at
    least one header the handler calls [res.setHeader], which fastify's
    reply does not have, and throws a [TypeError] before any status is
    set or payload sent. *)
Theorem single_response_stops_at_first_header
    (req : Request) (t : list Event)
    (status : Z) (hdrs : list (string * string)) (payload : JsValue) :
  shouldRenderGraphiQL (request_object req) = false →
  processRequest
    {| opt_params := getGraphQLParameters (request_object req);
       opt_request := request_object req;
       opt_contextFactory := contextFactory req |}
  = (t, inr (Response status hdrs payload)) →
  handler req
  = match hdrs with
    | [] => ((t ++ [ResStatus status; ResSend (BodyJson payload)])%list, inr tt)
    | _ :: _ => (t, inl (LibError "TypeError" "res.setHeader is not a function"))
    end.
Proof.
  intros Hpage Hproc. unfold handler. rewrite Hpage, Hproc.
  destruct hdrs as [|[name value] hdrs]; simpl; [reflexivity |].
  rewrite app_nil_r. reflexivity.
Qed.
End HandlerProperties.

(** ** The WebSocket hooks, remaining cases *)

Section HookProperties.
Context `{JwtLib} `{Engine}.

(** Extra X17.  When the query parses, the context is built and validation
    reports nothing, [onSubscribe] returns the execution arguments: the
    enveloped schema, the message's operation name and variables, the
    parsed document and the context built from the connection. *)
Theorem valid_document_returns_execution_arguments
    (ctx : WsContext) (msg : SubscribePayload)
    (document : DocumentNode) (contextValue : EnvelopedContext) :
  parse (sub_query msg) = inr document →
  envelopContextFactory
    {| init_connectionParams := connectionParams ctx;
       init_socket := extra_socket ctx;
       init_request := extra_request ctx |} = inr contextValue →
  validate schema document = [] →
  onSubscribe ctx msg
  = ([], inr (ReturnArgs
       {| args_schema := schema;
          args_operationName := sub_operationName msg;
          args_document := document;
          args_variableValues := sub_variables msg;
          args_contextValue := contextValue |})).
Proof.
  intros Hparse Hctx Hvalid. unfold onSubscribe. rewrite Hparse, Hctx. simpl.
  rewrite Hvalid. reflexivity.
Qed.

(** Extra X18.  Parsing and context building come before validation: a query
    that does not parse makes [onSubscribe] throw the parser's exception,
    and a context factory that throws makes it throw that exception, also
    for a document that validation would reject. *)
Theorem subscribe_failures_precede_validation
    (ctx : WsContext) (msg : SubscribePayload) (e : exn) :
  (parse (sub_query msg) = inl e → onSubscribe ctx msg = ([], inl e))
  ∧ (∀ document,
       parse (sub_query msg) = inr document →
       envelopContextFactory
         {| init_connectionParams := connectionParams ctx;
            init_socket := extra_socket ctx;
            init_request := extra_request ctx |} = inl e →
       onSubscribe ctx msg = ([], inl e)).
Proof.
  split.
  - intros Hparse. unfold onSubscribe. rewrite Hparse. reflexivity.
  - intros document Hparse Hctx. unfold onSubscribe.
    rewrite Hparse, Hctx. reflexivity.
Qed.

(** Extra X19.  A handshake whose [authToken] is absent or empty is accepted
    without identity: the context is [{ prisma }], [getUserId] is not
    called and nothing is thrown. *)
Theorem handshake_without_token_is_anonymous (authToken : option string) :
  truthy_prop authToken = false →
  onConnect authToken
  = ([], inr {| conn_prisma := prisma; conn_userId := None |}).
Proof. intros Hf. unfold onConnect. rewrite Hf. reflexivity. Qed.

End HookProperties.

(** ** Concrete runs of the further properties *)

Section FurtherRuns.
Import Fixture.

Lemma verification_happens_at_most_once_witness :
  verify_calls (trace (getUserId (Some (request_with "Bearer abc")) (Some "xyz"))) = []
  ∨ ∃ token,
      token ≠ ""
      ∧ trace (getUserId (Some (request_with "Bearer abc")) (Some "xyz"))
        = [ CallGetUserId (Some (request_with "Bearer abc")) (Some "xyz");
            CallJwtVerify token APP_SECRET ].
Proof.
  exact (verification_happens_at_most_once
           (Some (request_with "Bearer abc")) (Some "xyz")).
Defined.

Lemma identity_comes_from_a_verified_payload_witness :
  outcome (getUserId None (Some token42)) = inr (VStr "42")
  ∧ ∃ token payload,
      jwt_verify token APP_SECRET = inr payload
      ∧ VStr "42" = userId_of payload
      ∧ verify_calls (trace (getUserId None (Some token42))) = [token].
Proof.
  assert (Hout : outcome (getUserId None (Some token42)) = inr (VStr "42"))
    by (vm_compute; reflexivity).
  split; [exact Hout |].
  exact (identity_comes_from_a_verified_payload None (Some token42)
           (VStr "42") Hout).
Defined.

Lemma rejected_token_error_propagates_witness :
  "forged.u42" ≠ ""
  ∧ jwt_verify "forged.u42" APP_SECRET
    = inl (LibError "JsonWebTokenError" "invalid signature")
  ∧ outcome (getUserId None (Some "forged.u42"))
    = inl (LibError "JsonWebTokenError" "invalid signature")
  ∧ outcome (getUserId (Some (request_with "Bearer forged.u42")) None)
    = inl (LibError "JsonWebTokenError" "invalid signature").
Proof.
  assert (Hne : "forged.u42" ≠ "") by discriminate.
  assert (Hv : jwt_verify "forged.u42" APP_SECRET
               = inl (LibError "JsonWebTokenError" "invalid signature"))
    by (vm_compute; reflexivity).
  destruct (rejected_token_error_propagates "forged.u42" _ Hne Hv)
    as [Hraw Hheader].
  split; [exact Hne |]. split; [exact Hv |]. split; [exact Hraw |].
  exact (Hheader (request_with "Bearer forged.u42") eq_refl).
Defined.

Lemma credential_forms_agree_witness :
  token42 ≠ ""
  ∧ authorization (request_with ("Bearer " +:+ token42))
    = Some ("Bearer " +:+ token42)
  ∧ outcome (getUserId (Some (request_with ("Bearer " +:+ token42))) None)
    = outcome (getUserId None (Some token42))
  ∧ verify_calls (trace (getUserId (Some (request_with ("Bearer " +:+ token42))) None))
    = verify_calls (trace (getUserId None (Some token42))).
Proof.
  assert (Hne : token42 ≠ "") by discriminate.
  split; [exact Hne |]. split; [reflexivity |].
  exact (credential_forms_agree (request_with ("Bearer " +:+ token42)) token42
           Hne eq_refl).
Defined.

Lemma no_credential_is_not_authenticated_witness :
  truthy_prop (Some "") = false
  ∧ getUserId None (Some "")
    = ([CallGetUserId None (Some "")], inl NotAuthenticated).
Proof.
  split; [reflexivity |].
  exact (no_credential_is_not_authenticated (Some "") eq_refl).
Defined.

Lemma first_scheme_occurrence_is_cut_out_witness :
  indexOf "Bearer " "Token Bearer abc" = Some 6
  ∧ take_chars 6 "Token Bearer abc" +:+ drop_chars (6 + 7) "Token Bearer abc"
    = "Token abc"
  ∧ verify_calls (trace (getUserId (Some (request_with "Token Bearer abc")) None))
    = [take_chars 6 "Token Bearer abc" +:+ drop_chars (6 + 7) "Token Bearer abc"].
Proof.
  assert (Htok : take_chars 6 "Token Bearer abc"
                 +:+ drop_chars (6 + 7) "Token Bearer abc" ≠ "")
    by (vm_compute; discriminate).
  split; [reflexivity |]. split; [reflexivity |].
  exact (first_scheme_occurrence_is_cut_out (request_with "Token Bearer abc")
           "Token Bearer abc" 6 eq_refl eq_refl Htok).
Defined.

Lemma context_follows_the_resolver_witness :
  truthy_prop (authorization (request_with "Bearer forged.u42")) = true
  ∧ trace (contextFactory (request_with "Bearer forged.u42"))
    = trace (getUserId (Some (request_with "Bearer forged.u42")) None)
  ∧ outcome (contextFactory (request_with "Bearer forged.u42"))
    = inl (LibError "JsonWebTokenError" "invalid signature").
Proof.
  destruct (context_follows_the_resolver (request_with "Bearer forged.u42")
              eq_refl) as (Htrace & Hfail & _).
  split; [reflexivity |]. split; [exact Htrace |].
  apply Hfail. vm_compute. reflexivity.
Defined.

Lemma bearer_token_gives_identified_context_witness :
  jwt_verify token42 APP_SECRET = inr (DObject subject42)
  ∧ outcome (contextFactory (request_with ("Bearer " +:+ token42)))
    = inr {| ctx_req := request_with ("Bearer " +:+ token42);
             ctx_prisma := prisma;
             userId := VStr "42" |}.
Proof.
  assert (Hv : jwt_verify token42 APP_SECRET = inr (DObject subject42))
    by (vm_compute; reflexivity).
  split; [exact Hv |].
  exact (bearer_token_gives_identified_context
           (request_with ("Bearer " +:+ token42)) token42 (DObject subject42)
           eq_refl Hv).
Defined.

Lemma bare_scheme_fails_context_construction_witness :
  authorization (request_with "Bearer ") = Some "Bearer "
  ∧ outcome (contextFactory (request_with "Bearer ")) = inl MissingToken
  ∧ verify_calls (trace (contextFactory (request_with "Bearer "))) = [].
Proof.
  split; [reflexivity |].
  exact (bare_scheme_fails_context_construction (request_with "Bearer ") eq_refl).
Defined.

Lemma context_identity_is_null_or_verified_witness :
  outcome (contextFactory (request_with ("Bearer " +:+ token42)))
  = inr {| ctx_req := request_with ("Bearer " +:+ token42);
           ctx_prisma := prisma;
           userId := VStr "42" |}
  ∧ ((VStr "42" = VNull
      ∧ trace (contextFactory (request_with ("Bearer " +:+ token42))) = [])
     ∨ ∃ token payload,
         jwt_verify token APP_SECRET = inr payload
         ∧ VStr "42" = userId_of payload
         ∧ verify_calls (trace (contextFactory
                                  (request_with ("Bearer " +:+ token42))))
           = [token]).
Proof.
  assert (Hout : outcome (contextFactory (request_with ("Bearer " +:+ token42)))
                 = inr {| ctx_req := request_with ("Bearer " +:+ token42);
                          ctx_prisma := prisma;
                          userId := VStr "42" |})
    by (vm_compute; reflexivity).
  split; [exact Hout |].
  exact (proj2 (context_identity_is_null_or_verified _ _ Hout)).
Defined.

Lemma graphiql_page_skips_identity_witness :
  @shouldRenderGraphiQL helix (request_object page_request) = true
  ∧ authorization page_request = Some "Bearer "
  ∧ @handler jwt helix page_request
    = ([ ResType "text/html";
         ResSend (BodyHtml "<html>ws://localhost:4000/graphql</html>") ],
       inr tt)
  ∧ verify_calls (trace (@handler jwt helix page_request)) = [].
Proof.
  split; [reflexivity |]. split; [reflexivity |].
  exact (@graphiql_page_skips_identity jwt helix page_request eq_refl).
Defined.

Lemma single_response_stops_at_first_header_witness :
  @shouldRenderGraphiQL helix (request_object no_headers) = false
  ∧ @handler jwt helix no_headers
    = ([], inl (LibError "TypeError" "res.setHeader is not a function")).
Proof.
  split; [reflexivity |].
  exact (@single_response_stops_at_first_header jwt helix no_headers [] 200
           [ ("Content-Type", "application/json");
             ("Cache-Control", "no-store") ]
           (VObj [("viewer", VNull)]) eq_refl eq_refl).
Defined.

Lemma valid_document_returns_execution_arguments_witness :
  @parse helix (sub_query ok_message) = inr "{ ok }"
  ∧ @validate helix (@schema helix) "{ ok }" = []
  ∧ outcome (@onSubscribe helix some_context ok_message)
    = inr (@ReturnArgs helix
        {| args_schema := @schema helix;
           args_operationName := VStr "Feed";
           args_document := "{ ok }";
           args_variableValues := VNull;
           args_contextValue :=
             {| init_connectionParams := VNull; init_socket := VNull;
                init_request := VNull |} |}).
Proof.
  split; [reflexivity |]. split; [reflexivity |].
  exact (f_equal snd
           (@valid_document_returns_execution_arguments helix some_context
              ok_message "{ ok }" _ eq_refl eq_refl eq_refl)).
Defined.

Lemma subscribe_failures_precede_validation_witness :
  @parse helix (sub_query empty_message)
  = inl (LibError "GraphQLError" "Syntax Error: Unexpected <EOF>.")
  ∧ @onSubscribe helix some_context empty_message
    = ([], inl (LibError "GraphQLError" "Syntax Error: Unexpected <EOF>."))
  ∧ @validate helix (@schema helix) "{ nothing }" ≠ []
  ∧ @onSubscribe helix refused_context some_message
    = ([], inl (Error "context")).
Proof.
  assert (Hinvalid : @validate helix (@schema helix) "{ nothing }" ≠ [])
    by discriminate.
  split; [reflexivity |].
  split.
  { exact (proj1 (@subscribe_failures_precede_validation helix some_context
                    empty_message _) eq_refl). }
  split; [exact Hinvalid |].
  exact (proj2 (@subscribe_failures_precede_validation helix refused_context
                  some_message (Error "context")) "{ nothing }" eq_refl eq_refl).
Defined.

Lemma handshake_without_token_is_anonymous_witness :
  truthy_prop (Some "") = false
  ∧ onConnect (Some "")
    = ([], inr {| conn_prisma := prisma; conn_userId := None |}).
Proof.
  split; [reflexivity |].
  exact (handshake_without_token_is_anonymous (Some "") eq_refl).
Defined.

End FurtherRuns.
